(** * Airheads glider web control panel: [src/network.cpp]

    A shallow embedding of the HTTP control panel of the ME507 Airheads
    glider (an ESP32 Arduino sketch) and the proofs of its specified
    behaviour.  The sketch registers four pages with an Arduino
    [WebServer], answers every other address with a 404 page, and lets
    three of the pages write two task shares, [tc_state] and
    [web_calibrate], that the flight-control tasks read.

    Layout: Arduino strings; task shares; the web server object; the
    shared world of the sketch; the page handlers and [task_webserver]
    as they are written in the source; then the theorems. *)

From Stdlib Require Import String Ascii List ZArith Bool Lia DecimalString.
From Equations Require Import Equations.
Import ListNotations.

Local Open Scope string_scope.
Local Open Scope Z_scope.

(** ** Arduino [String] values

    An Arduino [String] is a byte string; [a += b] is [a ++ b].  C++
    string literals of the source are written here as Rocq literals.  A
    Rocq literal cannot hold the double-quote character conveniently, so
    in every literal passed to [lit] or [rawliteral] the backquote
    character stands for the double quote of the source (the source has
    no backquote).  Escapes [\n] of ordinary C++ literals are written
    [nl]. *)
Module ArduinoString.

Definition nl : string := String "010"%char EmptyString.
Definition cr : string := String "013"%char EmptyString.
Definition dq : ascii := "034"%char.
Definition bq : ascii := "096"%char.

Fixpoint lit (s : string) : string :=
  match s with
  | EmptyString => EmptyString
  | String c rest => String (if Ascii.eqb c bq then dq else c) (lit rest)
  end.

(** A C++ raw literal, [R] followed by the rawliteral delimiters: its lines, joined
    by the line feeds the source file has between them. *)
Definition rawliteral (lines : list string) : string :=
  lit (String.concat nl lines).

(** [String::concat (unsigned char num)], reached by [csv_str += index]:
    the number in decimal. *)
Definition String_of_uchar (num : Z) : string :=
  NilZero.string_of_uint (N.to_uint (Z.to_N num)).

(** Does [needle] occur in [hay]? *)
Fixpoint contains (needle hay : string) : bool :=
  if String.prefix needle hay then true
  else match hay with
       | EmptyString => false
       | String _ rest => contains needle rest
       end.

End ArduinoString.
Import ArduinoString.

(** ** Task shares ([taskshare.h])

    [Share<T>] holds one datum of type [T]; [put] overwrites it and [get]
    reads it back.  The share also carries the name given to its
    constructor. *)
Module TaskShare.

Record Share (T : Type) : Type := mkShare { share_name : string; the_data : T }.
Arguments mkShare {T} _ _.
Arguments share_name {T} _.
Arguments the_data {T} _.

Definition put {T : Type} (new_data : T) (sh : Share T) : Share T :=
  {| share_name := share_name sh; the_data := new_data |}.

Definition get {T : Type} (sh : Share T) : T := the_data sh.

(** The conversion C++ applies to the [int] literal in [put(1)], [put(0)]
    on a [Share<bool>]. *)
Definition bool_of_int (i : Z) : bool := negb (i =? 0).

End TaskShare.
Import TaskShare.

(** ** The web server object ([WebServer.h])

    The callbacks of the sketch are C function pointers; the server only
    stores and compares them, so they are an enumeration here. *)
Inductive THandlerFunction : Type :=
| fn_DocumentRoot
| fn_NotFound
| fn_Activate
| fn_Deactivate
| fn_Calibrate
| fn_Set_Rudder
| fn_Set_Elevator.

Inductive HTTPMethod : Type := HTTP_GET | HTTP_POST | HTTP_PUT | HTTP_DELETE.

(** A request as the server has parsed it: who asked (as [Serial] prints
    [server.client ()]), the method and the path. *)
Record Request : Type := mkRequest {
  req_client : string;
  req_method : HTTPMethod;
  req_path : string
}.

Record Response : Type := mkResponse {
  status : Z;
  content_type : string;
  body : string
}.

(** [handlers] is the server's list of [on] registrations, oldest first;
    [sent] is what [send] has written to clients, oldest first. *)
Record WebServer : Type := mkWebServer {
  port : Z;
  handlers : list (string * THandlerFunction);
  notFoundHandler : option THandlerFunction;
  begun : bool;
  client : string;
  sent : list Response
}.

(** [WebServer server (80)]. *)
Definition WebServer_new (p : Z) : WebServer :=
  {| port := p; handlers := []; notFoundHandler := None; begun := false;
     client := EmptyString; sent := [] |}.

Definition on (uri : string) (fn : THandlerFunction) (s : WebServer) : WebServer :=
  {| port := port s; handlers := handlers s ++ [(uri, fn)];
     notFoundHandler := notFoundHandler s; begun := begun s;
     client := client s; sent := sent s |}.

Definition onNotFound (fn : THandlerFunction) (s : WebServer) : WebServer :=
  {| port := port s; handlers := handlers s;
     notFoundHandler := Some fn; begun := begun s;
     client := client s; sent := sent s |}.

Definition begin (s : WebServer) : WebServer :=
  {| port := port s; handlers := handlers s;
     notFoundHandler := notFoundHandler s; begun := true;
     client := client s; sent := sent s |}.

Definition send (code : Z) (ctype content : string) (s : WebServer) : WebServer :=
  {| port := port s; handlers := handlers s;
     notFoundHandler := notFoundHandler s; begun := begun s;
     client := client s;
     sent := sent s ++ [ {| status := code; content_type := ctype; body := content |} ] |}.

Definition accept (c : string) (s : WebServer) : WebServer :=
  {| port := port s; handlers := handlers s;
     notFoundHandler := notFoundHandler s; begun := begun s;
     client := c; sent := sent s |}.

(** The first registration whose path is the requested one. *)
Fixpoint find_handler (uri : string) (hs : list (string * THandlerFunction))
  : option THandlerFunction :=
  match hs with
  | [] => None
  | (u, fn) :: rest => if String.eqb u uri then Some fn else find_handler uri rest
  end.

(** ** The world of the sketch

    The globals the handlers touch: the two shares, the serial port and
    the server. *)

(** Modelled from the spec: [shares.h], which declares [tc_state], is not
    under src/.  The spec's Shared State Store names the cell
    flight-control-enabled, a flag with the two values enabled and
    disabled; the handlers write the literals 1 and 0 to it, so it is a
    [Share<bool>] here like [web_calibrate], which this file declares. *)
Record World : Type := mkWorld {
  tc_state : Share bool;
  web_calibrate : Share bool;
  Serial : list string;
  server : WebServer
}.

Definition enabled : bool := true.
Definition disabled : bool := false.

Definition with_tc_state (f : Share bool -> Share bool) (w : World) : World :=
  {| tc_state := f (tc_state w); web_calibrate := web_calibrate w;
     Serial := Serial w; server := server w |}.

Definition with_web_calibrate (f : Share bool -> Share bool) (w : World) : World :=
  {| tc_state := tc_state w; web_calibrate := f (web_calibrate w);
     Serial := Serial w; server := server w |}.

Definition with_server (f : WebServer -> WebServer) (w : World) : World :=
  {| tc_state := tc_state w; web_calibrate := web_calibrate w;
     Serial := Serial w; server := f (server w) |}.

(** [Serial << x] and [Serial.println]: [endl] and [println] end the line
    with CR LF. *)
Definition Serial_print (x : string) (w : World) : World :=
  {| tc_state := tc_state w; web_calibrate := web_calibrate w;
     Serial := Serial w ++ [x]; server := server w |}.

Definition endl : string := cr ++ nl.

(** ** The page renderer *)

Definition HTML_header_open : string := rawliteral [
    EmptyString;
    "        <!DOCTYPE html>";
    "        <html lang=`en`>";
    "            <head>";
    "                <meta charset=`utf-8`>";
    "                <meta name=`viewport` content=`initial-scale=1, width=device-width`>";
    "                <title>" ].

Definition HTML_header_close : string := rawliteral [
    EmptyString;
    "                </title>";
    "                <style>";
    "                    html { font-family: Helvetica; display: inline-block; margin: 0px auto; text-align:center;}";
    "                    body { margin-top: 50px;}";
    "                    h1 { color: #4444AA; margin:50px auto 30px;}";
    "                    p { font-size: 24px; color: #222222; margin-bottom:10px;}";
    "                    input { width:250px;height:100px;font-size:20px;}";
    "                </style>";
    "            </head>";
    "            " ].

(** [HTML_header (a_string, page_title)] appends to [a_string]; the result
    is the new value of the referenced string. *)
Definition HTML_header (a_string : string) (page_title : string) : string :=
  let a_string := a_string ++ HTML_header_open in
  let a_string := a_string ++ page_title in
  let a_string := a_string ++ HTML_header_close in
  a_string.

Definition DocumentRoot_body : string := rawliteral [
    EmptyString;
    "        <body>";
    "            <main>";
    "                <div id=`webpage`>";
    "                    <h1>Main Page for ME507 Glider Project</h1>";
    "                    <h2>Control Panel</h2>";
    "                    <table>";
    "                        <tr>";
    "                            <form action=`/activate`>";
    "                                <input type=`submit` value=`Activate Flight Control`>";
    "                            </form>";
    "                            <form action=`/deactivate`>";
    "                                <input type=`submit` value=`Deactivate Flight Control`>";
    "                            </form>";
    "                            <form action=`/calibrate`>";
    "                                <input type=`submit` value=`Calibrate/Zero`>";
    "                            </form>";
    "                        </tr>";
    "                    </table>";
    "                    <h2>";
    "                        Manual Control";
    "                    </h2>";
    "                    <form action=`/set_rudder`>";
    "                        <input type=`text` style=`width:150px;height:50px;font-size:20px;`>";
    "                        <input type=`submit` value=`Set Rudder (-90, 90)` style=`width:250x;height:50px;font-size:20px;`>";
    "                    </form>";
    "                    <br>";
    "                    <form action=`/set_elevator`>";
    "                        <input type=`text` style=`width:150px;height:50px;font-size:20px;`>";
    "                        <input type=`submit` value=`Set Elevator (-90, 90)` style=`width:250x;height:50px;font-size:20px;`>";
    "                    </form>";
    "                    <br>";
    "                    <form>";
    "                        <input type=`text` style=`width:150px;height:50px;font-size:20px;`>";
    "                        <input type=`submit` value=`Set Rudder Gain` style=`width:250x;height:50px;font-size:20px;`>";
    "                    </form>";
    "                    <br>";
    "                    <form>";
    "                        <input type=`text` style=`width:150px;height:50px;font-size:20px;`>";
    "                        <input type=`submit` value=`Set Elevator Gain` style=`width:250x;height:50px;font-size:20px;`>";
    "                    </form>";
    "                    <br>";
    "                    <form>";
    "                        <input type=`submit` value=`Reset Default Gain` style=`width:250x;height:50px;font-size:20px;`>";
    "                    </form>";
    EmptyString;
    "                </div>";
    "            </main>";
    "        </body>";
    "    </html>";
    "    " ].

(** A rendering of the sine column used where a concrete one is needed
    to run the sketch on an example. *)
Definition sample_sin_3 : Z -> string := fun _ => "0.000".

(** ** The handlers and the server task *)
Section Sketch.

(** [String (sin (index / 5.4321), 3)]: the text the Arduino core prints
    for the double [sin (index / 5.4321)] with three decimals.  Doubles
    are not modelled; the handlers only append this text. *)
Variable String_sin_3 : Z -> string.

(** [handle_DocumentRoot]. *)
Definition handle_DocumentRoot (w : World) : World :=
  let w := Serial_print "HTTP request from client #" w in
  let w := Serial_print (client (server w)) w in
  let w := Serial_print endl w in
  let a_str := EmptyString in
  let a_str := HTML_header a_str "ESP32 Web Server Test - Airheads" in
  let a_str := a_str ++ DocumentRoot_body in
  with_server (send 200 "text/html" a_str) w.

(** [handle_NotFound]. *)
Definition handle_NotFound (w : World) : World :=
  with_server (send 404 "text/plain" "Not found") w.

(** [handle_Activate]. *)
Definition handle_Activate (w : World) : World :=
  let w := with_tc_state (put (bool_of_int 1)) w in
  let toggle_page := lit "<!DOCTYPE html> <html> <head>" ++ nl in
  let toggle_page := toggle_page ++ lit "<meta http-equiv=`refresh` content=`1; url='/'` />" ++ nl in
  let toggle_page := toggle_page ++ lit "</head> <body> <p> <a href='/'>Back to main page</a></p>" in
  let toggle_page := toggle_page ++ lit "</body> </html>" in
  with_server (send 200 "text/html" toggle_page) w.

(** [handle_Deactivate]. *)
Definition handle_Deactivate (w : World) : World :=
  let w := with_tc_state (put (bool_of_int 0)) w in
  let toggle_page := lit "<!DOCTYPE html> <html> <head>" ++ nl in
  let toggle_page := toggle_page ++ lit "<meta http-equiv=`refresh` content=`1; url='/'` />" ++ nl in
  let toggle_page := toggle_page ++ lit "</head> <body> <p> <a href='/'>Back to main page</a></p>" in
  let toggle_page := toggle_page ++ lit "</body> </html>" in
  with_server (send 200 "text/html" toggle_page) w.

(** [handle_Calibrate]. *)
Definition handle_Calibrate (w : World) : World :=
  let w := with_web_calibrate (put (bool_of_int 1)) w in
  let w := with_tc_state (put (bool_of_int 0)) w in
  let toggle_page := lit "<!DOCTYPE html> <html> <head>" ++ nl in
  let toggle_page := toggle_page ++ lit "<meta http-equiv=`refresh` content=`1; url='/'` />" ++ nl in
  let toggle_page := toggle_page ++ lit "</head> <body> <p> <a href='/'>Back to main page</a></p>" in
  let toggle_page := toggle_page ++ lit "</body> </html>" in
  with_server (send 200 "text/html" toggle_page) w.

(** [index++] on a [uint8_t]. *)
Definition uint8_succ (index : Z) : Z := (index + 1) mod 256.

(** Iterations the loop below still has to make. *)
Definition iterations_left (index : Z) : nat := Z.to_nat (20 - index).

(** The loop [for (uint8_t index = 0; index < 20; index++)] of the two
    CSV handlers, from the value of [index] at the loop test. *)
Equations? csv_rows (index : Z) (csv_str : string) : string
  by wf (iterations_left index) lt :=
  csv_rows index csv_str with Z_lt_dec index 20 => {
    | left _ =>
        let csv_str := csv_str ++ String_of_uchar index in
        let csv_str := csv_str ++ "," in
        let csv_str := csv_str ++ String_sin_3 index in
        let csv_str := csv_str ++ nl in
        csv_rows (uint8_succ index) csv_str;
    | right _ => csv_str }.
Proof.
  unfold iterations_left, uint8_succ.
  pose proof (Z.mod_pos_bound (index + 1) 256 ltac:(lia)) as Hb.
  destruct (Z_lt_dec index 0) as [Hneg | Hpos].
  - lia.
  - rewrite Z.mod_small by lia. lia.
Qed.

(** [handle_Set_Rudder]. *)
Definition handle_Set_Rudder (w : World) : World :=
  let csv_str := "Time, Jumpiness" ++ nl in
  let csv_str := csv_rows 0 csv_str in
  with_server (send 404 "text/plain" csv_str) w.

(** [handle_Set_Elevator]. *)
Definition handle_Set_Elevator (w : World) : World :=
  let csv_str := "Time, Jumpiness" ++ nl in
  let csv_str := csv_rows 0 csv_str in
  with_server (send 404 "text/plain" csv_str) w.

(** Calling through a function pointer. *)
Definition call (fn : THandlerFunction) : World -> World :=
  match fn with
  | fn_DocumentRoot => handle_DocumentRoot
  | fn_NotFound => handle_NotFound
  | fn_Activate => handle_Activate
  | fn_Deactivate => handle_Deactivate
  | fn_Calibrate => handle_Calibrate
  | fn_Set_Rudder => handle_Set_Rudder
  | fn_Set_Elevator => handle_Set_Elevator
  end.

(** Modelled from the spec: the request routing of the Arduino
    [WebServer] class ([WebServer.h] is a library, not under src/).  The
    spec's Route Dispatcher looks the request path up in the table of
    registrations and invokes the handler found; a path that is not found
    goes to the handler given to [onNotFound].  A server left without such
    a handler answers with the library's own 404 page. *)
Definition dispatch (req : Request) (w : World) : World :=
  let w := with_server (accept (req_client req)) w in
  match find_handler (req_path req) (handlers (server w)) with
  | Some fn => call fn w
  | None =>
      match notFoundHandler (server w) with
      | Some fn => call fn w
      | None =>
          with_server (send 404 "text/html" ("Not found: " ++ req_path req)) w
      end
  end.

(** [server.handleClient ()]: serves the request that is ready, if one is. *)
Definition handleClient (ready : option Request) (w : World) : World :=
  match ready with
  | Some req => dispatch req w
  | None => w
  end.

(** [task_webserver], up to its endless loop. *)
Definition task_webserver_setup (w : World) : World :=
  let w := with_server (on "/" fn_DocumentRoot) w in
  let w := with_server (on "/activate" fn_Activate) w in
  let w := with_server (on "/deactivate" fn_Deactivate) w in
  let w := with_server (on "/calibrate" fn_Calibrate) w in
  let w := with_server (onNotFound fn_NotFound) w in
  let w := with_server begin w in
  let w := Serial_print "HTTP server started" w in
  Serial_print endl w.

(** The loop [for (;;) { server.handleClient (); vTaskDelay (500); }] run
    over the polls of a finite stretch of time; each poll finds a request
    ready or none. *)
Fixpoint task_webserver_loop (polls : list (option Request)) (w : World) : World :=
  match polls with
  | [] => w
  | ready :: later => task_webserver_loop later (handleClient ready w)
  end.

Definition task_webserver (polls : list (option Request)) (w : World) : World :=
  task_webserver_loop polls (task_webserver_setup w).

(** The world when the tasks start: the globals as constructed, the
    shares holding whatever they hold. *)
Definition power_on (tc : Share bool) (calibrate : bool) : World :=
  {| tc_state := tc;
     web_calibrate := mkShare "Flag to calibrate/zero" calibrate;
     Serial := [];
     server := WebServer_new 80 |}.

(** The states the sketch can be in once the server task has registered
    its pages: any number of polls, interleaved with other tasks that
    write the shares and the serial port but never touch [server]. *)
Inductive running : World -> Prop :=
| running_setup (tc : Share bool) (calibrate : bool) :
    running (task_webserver_setup (power_on tc calibrate))
| running_poll (ready : option Request) (w : World) :
    running w -> running (handleClient ready w)
| running_other_task (w w' : World) :
    running w -> server w' = server w -> running w'.

(** The response [dispatch] returns: the one thing it sends. *)
Definition responds (req : Request) (w : World) (r : Response) : Prop :=
  sent (server (dispatch req w)) = (sent (server w) ++ [r])%list.

(** The paths of the spec's registered set. *)
Definition registered_paths : list string :=
  ["/"; "/activate"; "/deactivate"; "/calibrate"].

(** The redirect page of the spec: a document whose head carries a meta
    refresh to [target] after [delay] seconds. *)
Definition meta_refresh (delay : Z) (target : string) : string :=
  lit "<meta http-equiv=`refresh` content=`" ++ String_of_uchar delay
    ++ "; url='" ++ target ++ lit "'` />".

Definition redirect_page (delay : Z) (target : string) : string :=
  lit "<!DOCTYPE html> <html> <head>" ++ nl
    ++ meta_refresh delay target ++ nl
    ++ "</head> <body> <p> <a href='" ++ target
    ++ "'>Back to main page</a></p></body> </html>".

(** The table [task_webserver] leaves in the server. *)
Definition route_table : list (string * THandlerFunction) :=
  [("/", fn_DocumentRoot); ("/activate", fn_Activate);
   ("/deactivate", fn_Deactivate); ("/calibrate", fn_Calibrate)].

Definition routes_installed (w : World) : Prop :=
  handlers (server w) = route_table
  /\ notFoundHandler (server w) = Some fn_NotFound.

(** The root control page, as [handle_DocumentRoot] composes it. *)
Definition root_page : string :=
  HTML_header EmptyString "ESP32 Web Server Test - Airheads" ++ DocumentRoot_body.

(** One data row of the CSV text. *)
Definition csv_row (index : Z) : string :=
  String_of_uchar index ++ "," ++ String_sin_3 index ++ nl.

(** A state to run examples from: the sketch right after the setup, with
    flight control off and no calibration asked for. *)
Definition sample_world : World :=
  task_webserver_setup (power_on (mkShare "tc_state" false) false).

(** *** Observations on a stretch of polls *)

(** The requests a stretch of polls finds ready, in order of arrival. *)
Definition served (polls : list (option Request)) : list Request :=
  flat_map (fun ready => match ready with Some req => [req] | None => [] end) polls.

(** The response a path gets: the root page, the redirect page or the
    not-found text. *)
Definition reply_for (path : string) : Response :=
  if String.eqb path "/" then
    {| status := 200; content_type := "text/html"; body := root_page |}
  else if String.eqb path "/activate" then
    {| status := 200; content_type := "text/html"; body := redirect_page 1 "/" |}
  else if String.eqb path "/deactivate" then
    {| status := 200; content_type := "text/html"; body := redirect_page 1 "/" |}
  else if String.eqb path "/calibrate" then
    {| status := 200; content_type := "text/html"; body := redirect_page 1 "/" |}
  else
    {| status := 404; content_type := "text/plain"; body := "Not found" |}.

(** What a path tells the flight control, if anything. *)
Definition flight_command (path : string) : option bool :=
  if String.eqb path "/activate" then Some enabled
  else if String.eqb path "/deactivate" then Some disabled
  else if String.eqb path "/calibrate" then Some disabled
  else None.

(** The command of the latest request that carries one. *)
Fixpoint last_flight_command (reqs : list Request) : option bool :=
  match reqs with
  | [] => None
  | req :: later =>
      match last_flight_command later with
      | Some b => Some b
      | None => flight_command (req_path req)
      end
  end.

Definition calibrate_asked (reqs : list Request) : bool :=
  existsb (fun req => String.eqb (req_path req) "/calibrate") reqs.

(** What a request makes the sketch print on the serial port. *)
Definition serial_lines (req : Request) : list string :=
  if String.eqb (req_path req) "/" then
    ["HTTP request from client #"; req_client req; endl]
  else [].

(** Occurrences of a character in a string. *)
Fixpoint count_char (c : ascii) (s : string) : nat :=
  match s with
  | EmptyString => 0%nat
  | String c' rest => ((if Ascii.eqb c' c then 1 else 0) + count_char c rest)%nat
  end.

(** A stretch of polls to run examples on: activate, an idle poll,
    calibrate, the root page, and a path that is not registered. *)
Definition sample_polls : list (option Request) :=
  [ Some (mkRequest "1" HTTP_GET "/activate"); None;
    Some (mkRequest "2" HTTP_GET "/calibrate");
    Some (mkRequest "3" HTTP_GET "/");
    Some (mkRequest "4" HTTP_POST "/set_elevator") ].

(** ** Properties *)

(** *** Strings *)

Lemma append_assoc (a b c : string) : (a ++ b) ++ c = a ++ b ++ c.
Proof.
  induction a as [| ch a IH]; simpl.
  - reflexivity.
  - rewrite IH. reflexivity.
Qed.

Lemma append_nil_r (a : string) : a ++ EmptyString = a.
Proof.
  induction a as [| ch a IH]; simpl; [reflexivity | now rewrite IH].
Qed.

Lemma concat_empty_cons (r : string) (rs : list string) :
  String.concat EmptyString (r :: rs) = r ++ String.concat EmptyString rs.
Proof.
  destruct rs as [| r' rs]; simpl.
  - symmetry. apply append_nil_r.
  - reflexivity.
Qed.

(** The three raw literals have the byte counts of the source text. *)
Lemma rawliteral_lengths :
  String.length HTML_header_open = 216%nat
  /\ String.length HTML_header_close = 478%nat
  /\ String.length DocumentRoot_body = 2372%nat.
Proof. repeat split; vm_compute; reflexivity. Qed.

(** *** The route table is an invariant of the running sketch *)

Lemma call_keeps_routes (fn : THandlerFunction) (w : World) :
  handlers (server (call fn w)) = handlers (server w)
  /\ notFoundHandler (server (call fn w)) = notFoundHandler (server w).
Proof. destruct fn; split; reflexivity. Qed.

Lemma dispatch_keeps_routes (req : Request) (w : World) :
  handlers (server (dispatch req w)) = handlers (server w)
  /\ notFoundHandler (server (dispatch req w)) = notFoundHandler (server w).
Proof.
  unfold dispatch.
  set (w1 := with_server (accept (req_client req)) w).
  change (handlers (server w)) with (handlers (server w1)).
  change (notFoundHandler (server w)) with (notFoundHandler (server w1)).
  destruct (find_handler (req_path req) (handlers (server w1))) as [fn |].
  - apply call_keeps_routes.
  - destruct (notFoundHandler (server w1)) as [fn |] eqn:Hnf.
    + destruct (call_keeps_routes fn w1) as [Hh Hn]. rewrite Hh, Hn. auto.
    + simpl. auto.
Qed.

Lemma running_routes_installed (w : World) : running w -> routes_installed w.
Proof.
  induction 1 as [tc calibrate | ready w Hrun IH | w w' Hrun IH Hsrv].
  - split; reflexivity.
  - destruct ready as [req |]; simpl; [| exact IH].
    destruct IH as [Hh Hn].
    destruct (dispatch_keeps_routes req w) as [Hh' Hn'].
    split; congruence.
  - unfold routes_installed. rewrite Hsrv. exact IH.
Qed.

(** The whole task, over any finite stretch of polls, ends in a running
    state. *)
Lemma task_webserver_loop_running (polls : list (option Request)) (w : World) :
  running w -> running (task_webserver_loop polls w).
Proof.
  revert w. induction polls as [| ready later IH]; intros w Hrun; simpl.
  - exact Hrun.
  - apply IH. apply running_poll. exact Hrun.
Qed.

Lemma find_handler_unregistered (p : string) :
  ~ In p registered_paths -> find_handler p route_table = None.
Proof.
  intros Hnot. unfold route_table. cbn [find_handler].
  unfold registered_paths in Hnot. cbn [In] in Hnot.
  repeat match goal with
         | |- context [String.eqb ?a p] =>
             destruct (String.eqb_spec a p); [exfalso; apply Hnot; tauto |]
         end.
  reflexivity.
Qed.

(** Where a request goes in a running sketch. *)
Lemma dispatch_running (req : Request) (w : World) :
  running w ->
  dispatch req w =
  call (match find_handler (req_path req) route_table with
        | Some fn => fn
        | None => fn_NotFound
        end) (with_server (accept (req_client req)) w).
Proof.
  intros Hrun. destruct (running_routes_installed w Hrun) as [Hh Hn].
  unfold dispatch.
  change (handlers (server (with_server (accept (req_client req)) w)))
    with (handlers (server w)).
  change (notFoundHandler (server (with_server (accept (req_client req)) w)))
    with (notFoundHandler (server w)).
  rewrite Hh, Hn.
  destruct (find_handler (req_path req) route_table); reflexivity.
Qed.

(** Send a request with a path that is written out to its handler. *)
Ltac route Hrun := rewrite (dispatch_running _ _ Hrun); cbn [req_path]; simpl find_handler.

(** *** Unmatched paths *)

(** C1: in a running sketch, a request whose path is none of "/",
    "/activate", "/deactivate", "/calibrate" is answered by exactly one
    response: status 404, content type text/plain, body "Not found". *)
Theorem dispatch_unregistered_not_found (req : Request) (w : World) :
  running w ->
  ~ In (req_path req) registered_paths ->
  responds req w
    {| status := 404; content_type := "text/plain"; body := "Not found" |}.
Proof.
  intros Hrun Hnot. unfold responds.
  rewrite (dispatch_running req w Hrun).
  rewrite (find_handler_unregistered _ Hnot).
  reflexivity.
Qed.

(** *** The shares after a request *)

(** C2: whatever the shares held before, in a running sketch a get of
    [tc_state] after the dispatch of "/activate" returns enabled, and
    after the dispatch of "/deactivate" or of "/calibrate" it returns
    disabled; who asks and by which method makes no difference. *)
Theorem dispatch_sets_flight_control (c : string) (m : HTTPMethod) (w : World) :
  running w ->
  get (tc_state (dispatch (mkRequest c m "/activate") w)) = enabled
  /\ get (tc_state (dispatch (mkRequest c m "/deactivate") w)) = disabled
  /\ get (tc_state (dispatch (mkRequest c m "/calibrate") w)) = disabled.
Proof.
  intros Hrun. repeat split; route Hrun; reflexivity.
Qed.

(** C3: whatever the shares held before, in a running sketch a get of
    [web_calibrate] after the dispatch of "/calibrate" returns true. *)
Theorem dispatch_calibrate_requests_calibration
  (c : string) (m : HTTPMethod) (w : World) :
  running w ->
  get (web_calibrate (dispatch (mkRequest c m "/calibrate") w)) = true.
Proof.
  intros Hrun. route Hrun. reflexivity.
Qed.

(** C4: from every state of a running sketch, dispatching "/activate" and
    then "/calibrate" leaves [tc_state] disabled, although it was enabled
    in between: the write of the calibrate handler is the last one. *)
Theorem activate_then_calibrate_disabled
  (c1 c2 : string) (m1 m2 : HTTPMethod) (w : World) :
  running w ->
  let w1 := dispatch (mkRequest c1 m1 "/activate") w in
  let w2 := dispatch (mkRequest c2 m2 "/calibrate") w1 in
  get (tc_state w1) = enabled /\ get (tc_state w2) = disabled.
Proof.
  intros Hrun w1 w2. split.
  - unfold w1. route Hrun. reflexivity.
  - assert (Hrun1 : running w1)
      by exact (running_poll (Some (mkRequest c1 m1 "/activate")) w Hrun).
    unfold w2. route Hrun1. reflexivity.
Qed.

(** C9: in a running sketch the dispatch of "/" and the dispatch of a
    path outside the registered set leave both shares as they were,
    whatever they held. *)
Theorem dispatch_root_or_unmatched_frame (req : Request) (w : World) :
  running w ->
  req_path req = "/" \/ ~ In (req_path req) registered_paths ->
  tc_state (dispatch req w) = tc_state w
  /\ web_calibrate (dispatch req w) = web_calibrate w.
Proof.
  intros Hrun [Hpath | Hnot]; rewrite (dispatch_running req w Hrun).
  - rewrite Hpath. split; reflexivity.
  - rewrite (find_handler_unregistered _ Hnot). split; reflexivity.
Qed.

(** *** The pages *)

(** C5: in a running sketch each of "/activate", "/deactivate" and
    "/calibrate" is answered by exactly one response, with status 200,
    content type text/html and as body the redirect page: a document
    whose head holds a meta refresh that loads "/" after 1 second. *)
Theorem mutating_routes_redirect (c : string) (m : HTTPMethod) (w : World) :
  running w ->
  let redirect :=
    {| status := 200; content_type := "text/html";
       body := redirect_page 1 "/" |} in
  responds (mkRequest c m "/activate") w redirect
  /\ responds (mkRequest c m "/deactivate") w redirect
  /\ responds (mkRequest c m "/calibrate") w redirect
  /\ contains (meta_refresh 1 "/") (body redirect) = true
  /\ meta_refresh 1 "/" = lit "<meta http-equiv=`refresh` content=`1; url='/'` />".
Proof.
  intros Hrun redirect. unfold responds.
  repeat split; try (route Hrun; reflexivity); vm_compute; reflexivity.
Qed.

(** C6: rendering the root page does not depend on the state: from any
    two states [handle_DocumentRoot] sends the same response, byte for
    byte, and so do two calls in a row. *)
Theorem root_page_deterministic (w w' : World) :
  let page := {| status := 200; content_type := "text/html"; body := root_page |} in
  sent (server (handle_DocumentRoot w)) = (sent (server w) ++ [page])%list
  /\ sent (server (handle_DocumentRoot w')) = (sent (server w') ++ [page])%list
  /\ sent (server (handle_DocumentRoot (handle_DocumentRoot w)))
     = (sent (server w) ++ [page; page])%list.
Proof.
  intros page. repeat split; try reflexivity.
  simpl. rewrite <- app_assoc. reflexivity.
Qed.

(** C7: for every title, [HTML_header] puts the characters of the title,
    unchanged, right after the opening title tag; the closing tag follows
    on the next line.  Nothing of the output but this stretch depends on
    the title. *)
Theorem HTML_header_title_verbatim :
  exists before after : string,
    forall a_string page_title : string,
      HTML_header a_string page_title =
      a_string ++ before ++ "<title>" ++ page_title
        ++ nl ++ "                </title>" ++ after.
Proof.
  exists (substring 0 209 HTML_header_open).
  exists (substring 25 453 HTML_header_close).
  intros a_string page_title. unfold HTML_header.
  rewrite !append_assoc.
  (* both sides now spell out the same characters around the title *)
  f_equal.
Qed.

(** *** The route table *)

(** C8: in every state of the running sketch, from the end of the setup
    on, the server's table holds exactly the paths "/", "/activate",
    "/deactivate", "/calibrate", each once, and the not-found handler is
    [handle_NotFound]; neither CSV handler is in the table, and
    "/set_rudder" and "/set_elevator" have no entry. *)
Theorem route_table_exact (w : World) :
  running w ->
  map fst (handlers (server w)) = registered_paths
  /\ NoDup (map fst (handlers (server w)))
  /\ notFoundHandler (server w) = Some fn_NotFound
  /\ ~ In fn_Set_Rudder (map snd (handlers (server w)))
  /\ ~ In fn_Set_Elevator (map snd (handlers (server w)))
  /\ find_handler "/set_rudder" (handlers (server w)) = None
  /\ find_handler "/set_elevator" (handlers (server w)) = None.
Proof.
  intros Hrun. destruct (running_routes_installed w Hrun) as [Hh Hn].
  rewrite Hh, Hn. unfold route_table, registered_paths. simpl.
  repeat split; try reflexivity.
  - repeat constructor; simpl; intuition discriminate.
  - intuition discriminate.
  - intuition discriminate.
Qed.

(** *** The CSV handlers *)

Lemma csv_rows_from (n : nat) (index : Z) (csv_str : string) :
  0 <= index ->
  index + Z.of_nat n = 20 ->
  csv_rows index csv_str =
  csv_str ++ String.concat EmptyString
               (map (fun k => csv_row (index + Z.of_nat k)) (seq 0 n)).
Proof.
  revert index csv_str.
  induction n as [| n IH]; intros index csv_str Hlo Hsum.
  - simp csv_rows. destruct (Z_lt_dec index 20) as [Hlt | Hge]; [lia |].
    simpl. symmetry. apply append_nil_r.
  - simp csv_rows. destruct (Z_lt_dec index 20) as [Hlt | Hge]; [| lia].
    cbn [csv_rows_unfold_clause_1].
    assert (Hsucc : uint8_succ index = index + 1)
      by (unfold uint8_succ; apply Z.mod_small; lia).
    rewrite Hsucc, (IH (index + 1)) by lia.
    cbn [seq map]. rewrite <- seq_shift, map_map, concat_empty_cons.
    rewrite Z.add_0_r. unfold csv_row at 2.
    rewrite !append_assoc. do 6 f_equal.
    apply map_ext. intros k. f_equal. lia.
Qed.

(** C10: [handle_Set_Rudder] and [handle_Set_Elevator] each send one
    response with status 404 (not 200) and content type text/plain, whose
    body is the line "Time, Jumpiness" followed by the 20 rows of the
    indices 0 to 19; the two handlers do the same. *)
Theorem csv_handlers_send_404 (w : World) :
  let rows := map (fun k => csv_row (Z.of_nat k)) (seq 0 20) in
  let csv := "Time, Jumpiness" ++ nl ++ String.concat EmptyString rows in
  let reply := {| status := 404; content_type := "text/plain"; body := csv |} in
  sent (server (handle_Set_Rudder w)) = (sent (server w) ++ [reply])%list
  /\ sent (server (handle_Set_Elevator w)) = (sent (server w) ++ [reply])%list
  /\ handle_Set_Elevator w = handle_Set_Rudder w
  /\ length rows = 20%nat
  /\ status reply <> 200.
Proof.
  intros rows csv reply.
  assert (Hcsv : csv_rows 0 ("Time, Jumpiness" ++ nl) = csv).
  { rewrite (csv_rows_from 20 0) by lia. unfold csv, rows.
    rewrite append_assoc. reflexivity. }
  repeat split.
  - unfold handle_Set_Rudder. cbv zeta. rewrite Hcsv. reflexivity.
  - unfold handle_Set_Elevator. cbv zeta. rewrite Hcsv. reflexivity.
  - discriminate.
Qed.

(** ** Further properties of the running sketch *)

Lemma length_append (a b : string) :
  String.length (a ++ b) = (String.length a + String.length b)%nat.
Proof.
  induction a as [| ch a IH]; simpl; [reflexivity | now rewrite IH].
Qed.

Lemma count_char_append (c : ascii) (a b : string) :
  count_char c (a ++ b) = (count_char c a + count_char c b)%nat.
Proof.
  induction a as [| ch a IH]; simpl; [reflexivity | rewrite IH; lia].
Qed.

(** Every path is one of the four registered ones or none of them. *)
Lemma route_cases (p : string) :
  p = "/" \/ p = "/activate" \/ p = "/deactivate" \/ p = "/calibrate"
  \/ ~ In p registered_paths.
Proof.
  destruct (String.eqb_spec p "/"); [tauto |].
  destruct (String.eqb_spec p "/activate"); [tauto |].
  destruct (String.eqb_spec p "/deactivate"); [tauto |].
  destruct (String.eqb_spec p "/calibrate"); [tauto |].
  do 4 right. unfold registered_paths. cbn [In]. intuition congruence.
Qed.

Lemma unregistered_eqb (p : string) :
  ~ In p registered_paths ->
  String.eqb p "/" = false /\ String.eqb p "/activate" = false
  /\ String.eqb p "/deactivate" = false /\ String.eqb p "/calibrate" = false.
Proof.
  unfold registered_paths. cbn [In]. intros Hnot.
  repeat split; apply String.eqb_neq; intros ->; apply Hnot; auto 6.
Qed.

(** One request, in full: the response, both shares and the serial port. *)
Lemma dispatch_step (req : Request) (w : World) :
  running w ->
  sent (server (dispatch req w))
  = (sent (server w) ++ [reply_for (req_path req)])%list
  /\ get (tc_state (dispatch req w))
     = match flight_command (req_path req) with
       | Some b => b
       | None => get (tc_state w)
       end
  /\ get (web_calibrate (dispatch req w))
     = (get (web_calibrate w) || String.eqb (req_path req) "/calibrate")%bool
  /\ Serial (dispatch req w) = (Serial w ++ serial_lines req)%list.
Proof.
  intros Hrun. rewrite (dispatch_running req w Hrun). unfold serial_lines.
  destruct (route_cases (req_path req)) as [Hp | [Hp | [Hp | [Hp | Hnot]]]];
    try (rewrite Hp; cbn [find_handler route_table]; simpl String.eqb;
         cbv iota; unfold call;
         repeat split; try reflexivity;
         cbn; rewrite ?orb_false_r, ?orb_true_r, ?app_nil_r; try reflexivity;
         rewrite <- !app_assoc; reflexivity).
  rewrite (find_handler_unregistered _ Hnot).
  destruct (unregistered_eqb _ Hnot) as [H0 [H1 [H2 H3]]].
  unfold reply_for, flight_command. rewrite H0, H1, H2, H3.
  cbn. rewrite orb_false_r, app_nil_r. repeat split; reflexivity.
Qed.

(** X1: in a running sketch every request is answered by exactly one
    response; its status is 200 exactly when the path is registered, and
    then the content type is text/html; otherwise it is the 404
    text/plain Not found response. *)
Theorem every_request_answered (req : Request) (w : World) :
  running w ->
  exists r : Response,
    responds req w r
    /\ (status r = 200 <-> In (req_path req) registered_paths)
    /\ (status r = 200 -> content_type r = "text/html")
    /\ (status r <> 200 ->
        r = {| status := 404; content_type := "text/plain"; body := "Not found" |}).
Proof.
  intros Hrun. exists (reply_for (req_path req)).
  split; [exact (proj1 (dispatch_step req w Hrun)) |].
  destruct (route_cases (req_path req)) as [Hp | [Hp | [Hp | [Hp | Hnot]]]];
    try (rewrite Hp; unfold registered_paths; cbn;
         repeat split; auto; try tauto; congruence).
  destruct (unregistered_eqb _ Hnot) as [H0 [H1 [H2 H3]]].
  unfold reply_for. rewrite H0, H1, H2, H3. cbn [status content_type].
  repeat split; intros; try discriminate; try contradiction; reflexivity.
Qed.

(** X2: over any stretch of polls the server sends exactly one response
    for each request found ready, appended in order of arrival to what
    was sent before; each response depends on the path of its request
    alone, not on the shares, the client, the method or earlier
    requests. *)
Theorem poll_loop_responses (polls : list (option Request)) (w : World) :
  running w ->
  sent (server (task_webserver_loop polls w))
  = (sent (server w) ++ map (fun req => reply_for (req_path req)) (served polls))%list.
Proof.
  revert w. induction polls as [| ready later IH]; intros w Hrun.
  - simpl. now rewrite app_nil_r.
  - cbn [task_webserver_loop].
    rewrite (IH _ (running_poll ready w Hrun)).
    destruct ready as [req |].
    + cbn [handleClient served flat_map]. fold (served later).
      rewrite (proj1 (dispatch_step req w Hrun)).
      rewrite <- app_assoc. reflexivity.
    + reflexivity.
Qed.

(** X3: the server never withdraws a calibration request: after any
    stretch of polls (and no write by another task) [web_calibrate]
    holds true exactly when it held true before or one of the requests
    served was "/calibrate". *)
Theorem poll_loop_calibrate_accumulates (polls : list (option Request)) (w : World) :
  running w ->
  get (web_calibrate (task_webserver_loop polls w))
  = (get (web_calibrate w) || calibrate_asked (served polls))%bool.
Proof.
  revert w. induction polls as [| ready later IH]; intros w Hrun.
  - simpl. now rewrite orb_false_r.
  - cbn [task_webserver_loop].
    rewrite (IH _ (running_poll ready w Hrun)).
    destruct ready as [req |].
    + cbn [handleClient served flat_map]. fold (served later).
      destruct (dispatch_step req w Hrun) as [_ [_ [Hcal _]]].
      rewrite Hcal. unfold calibrate_asked. cbn [app existsb].
      now rewrite orb_assoc.
    + reflexivity.
Qed.

(** X4: after any stretch of polls (and no write by another task)
    [tc_state] holds what the latest of the requests "/activate",
    "/deactivate", "/calibrate" asked for, enabled for the first and
    disabled for the other two; if none was served it holds what it held
    before. *)
Theorem poll_loop_last_command_wins (polls : list (option Request)) (w : World) :
  running w ->
  get (tc_state (task_webserver_loop polls w))
  = match last_flight_command (served polls) with
    | Some b => b
    | None => get (tc_state w)
    end.
Proof.
  revert w. induction polls as [| ready later IH]; intros w Hrun.
  - reflexivity.
  - cbn [task_webserver_loop].
    rewrite (IH _ (running_poll ready w Hrun)).
    destruct ready as [req |].
    + cbn [handleClient served flat_map]. fold (served later).
      cbn [app last_flight_command].
      destruct (last_flight_command (served later)) as [b |]; [reflexivity |].
      exact (proj1 (proj2 (dispatch_step req w Hrun))).
    + reflexivity.
Qed.

(** X5: of all requests only those for "/" write to the serial port: the
    dispatch of "/" appends the text "HTTP request from client #", the
    client and an end of line; the dispatch of any other path prints
    nothing. *)
Theorem only_root_writes_serial (req : Request) (w : World) :
  running w ->
  (req_path req = "/" ->
   Serial (dispatch req w)
   = (Serial w ++ ["HTTP request from client #"; req_client req; endl])%list)
  /\ (req_path req <> "/" -> Serial (dispatch req w) = Serial w).
Proof.
  intros Hrun.
  destruct (dispatch_step req w Hrun) as [_ [_ [_ Hser]]].
  rewrite Hser. unfold serial_lines. split.
  - intros ->. reflexivity.
  - intros Hne. apply String.eqb_neq in Hne. rewrite Hne. apply app_nil_r.
Qed.

(** X6: [HTML_header] makes the string longer by the 694 bytes of its
    two literals plus the length of the title: every character of the
    title takes one byte of the page, whatever it is. *)
Theorem HTML_header_length (a_string page_title : string) :
  String.length (HTML_header a_string page_title)
  = (String.length a_string + 694 + String.length page_title)%nat.
Proof.
  unfold HTML_header. rewrite !length_append.
  destruct rawliteral_lengths as [Ho [Hc _]]. rewrite Ho, Hc. lia.
Qed.

(** X7: when the text printed for the sines holds no line feed and no
    comma, the CSV text [handle_Set_Rudder] sends has 21 lines, each
    ended by a line feed, and one comma on each of them. *)
Theorem csv_has_21_lines (w : World) :
  (forall index, 0 <= index < 20 ->
     count_char "010"%char (String_sin_3 index) = 0%nat
     /\ count_char ","%char (String_sin_3 index) = 0%nat) ->
  exists csv : string,
    sent (server (handle_Set_Rudder w))
    = (sent (server w)
       ++ [ {| status := 404; content_type := "text/plain"; body := csv |} ])%list
    /\ count_char "010"%char csv = 21%nat
    /\ count_char ","%char csv = 21%nat.
Proof.
  intros Hsin.
  exists ("Time, Jumpiness" ++ nl
          ++ String.concat EmptyString (map (fun k => csv_row (Z.of_nat k)) (seq 0 20))).
  split.
  - unfold handle_Set_Rudder. cbv zeta.
    rewrite (csv_rows_from 20 0) by lia. rewrite append_assoc. reflexivity.
  - cbn [seq map]. rewrite !concat_empty_cons. unfold csv_row.
    rewrite !count_char_append.
    split.
    + repeat match goal with
             | |- context [count_char "010"%char (String_sin_3 ?i)] =>
                 rewrite (proj1 (Hsin i ltac:(lia)))
             end.
      reflexivity.
    + repeat match goal with
             | |- context [count_char ","%char (String_sin_3 ?i)] =>
                 rewrite (proj2 (Hsin i ltac:(lia)))
             end.
      reflexivity.
Qed.

(** X8: the root page the server sends carries forms that submit to
    "/set_rudder" and to "/set_elevator", yet in a running sketch both
    paths are answered with 404 Not found and leave the shares as they
    are: the two manual-control buttons of the page do nothing. *)
Theorem manual_control_forms_not_served (c : string) (m : HTTPMethod) (w : World) :
  running w ->
  let not_found :=
    {| status := 404; content_type := "text/plain"; body := "Not found" |} in
  contains (lit "<form action=`/set_rudder`>") root_page = true
  /\ contains (lit "<form action=`/set_elevator`>") root_page = true
  /\ responds (mkRequest c m "/") w
       {| status := 200; content_type := "text/html"; body := root_page |}
  /\ responds (mkRequest c m "/set_rudder") w not_found
  /\ responds (mkRequest c m "/set_elevator") w not_found
  /\ tc_state (dispatch (mkRequest c m "/set_rudder") w) = tc_state w
  /\ tc_state (dispatch (mkRequest c m "/set_elevator") w) = tc_state w.
Proof.
  intros Hrun not_found. unfold responds.
  split; [vm_compute; reflexivity |].
  split; [vm_compute; reflexivity |].
  repeat split; route Hrun; reflexivity.
Qed.

(** X9: in every state of the running sketch the server is the one made
    for port 80 and has been begun; no handler and no poll changes
    that. *)
Theorem running_server_begun_on_80 (w : World) :
  running w -> port (server w) = 80 /\ begun (server w) = true.
Proof.
  induction 1 as [tc calibrate | ready w Hrun IH | w w' Hrun IH Hsrv].
  - split; reflexivity.
  - destruct ready as [req |]; [| exact IH].
    cbn [handleClient]. unfold dispatch.
    set (w1 := with_server (accept (req_client req)) w).
    assert (Hcall : forall fn,
               port (server (call fn w1)) = 80
               /\ begun (server (call fn w1)) = true)
      by (intros fn; destruct fn; exact IH).
    destruct (find_handler (req_path req) (handlers (server w1))) as [fn |];
      [apply Hcall |].
    destruct (notFoundHandler (server w1)) as [fn |]; [apply Hcall | exact IH].
  - rewrite Hsrv. exact IH.
Qed.

End Sketch.

(** ** The theorems at work on the sample state *)

Lemma sample_world_running : running sample_sin_3 sample_world.
Proof. apply running_setup. Defined.

Lemma dispatch_unregistered_not_found_witness :
  running sample_sin_3 sample_world
  /\ ~ In "/set_rudder" registered_paths
  /\ responds sample_sin_3 (mkRequest "1" HTTP_GET "/set_rudder") sample_world
       {| status := 404; content_type := "text/plain"; body := "Not found" |}.
Proof.
  assert (Hnot : ~ In "/set_rudder" registered_paths)
    by (simpl; intuition discriminate).
  split; [exact sample_world_running | split; [exact Hnot |]].
  apply (dispatch_unregistered_not_found sample_sin_3
           (mkRequest "1" HTTP_GET "/set_rudder") sample_world).
  - exact sample_world_running.
  - exact Hnot.
Defined.

Lemma dispatch_sets_flight_control_witness :
  running sample_sin_3 sample_world
  /\ get (tc_state (dispatch sample_sin_3 (mkRequest "1" HTTP_GET "/activate") sample_world))
     = enabled
  /\ get (tc_state (dispatch sample_sin_3 (mkRequest "1" HTTP_GET "/deactivate") sample_world))
     = disabled
  /\ get (tc_state (dispatch sample_sin_3 (mkRequest "1" HTTP_GET "/calibrate") sample_world))
     = disabled.
Proof.
  split; [exact sample_world_running |].
  apply (dispatch_sets_flight_control sample_sin_3 "1" HTTP_GET sample_world).
  exact sample_world_running.
Defined.

Lemma dispatch_calibrate_requests_calibration_witness :
  running sample_sin_3 sample_world
  /\ get (web_calibrate
            (dispatch sample_sin_3 (mkRequest "1" HTTP_GET "/calibrate") sample_world))
     = true.
Proof.
  split; [exact sample_world_running |].
  apply (dispatch_calibrate_requests_calibration sample_sin_3 "1" HTTP_GET sample_world).
  exact sample_world_running.
Defined.

Lemma activate_then_calibrate_disabled_witness :
  running sample_sin_3 sample_world
  /\ get (tc_state (dispatch sample_sin_3 (mkRequest "1" HTTP_GET "/activate") sample_world))
     = enabled
  /\ get (tc_state
            (dispatch sample_sin_3 (mkRequest "2" HTTP_GET "/calibrate")
               (dispatch sample_sin_3 (mkRequest "1" HTTP_GET "/activate") sample_world)))
     = disabled.
Proof.
  split; [exact sample_world_running |].
  apply (activate_then_calibrate_disabled sample_sin_3
           "1" "2" HTTP_GET HTTP_GET sample_world).
  exact sample_world_running.
Defined.

Lemma mutating_routes_redirect_witness :
  running sample_sin_3 sample_world
  /\ responds sample_sin_3 (mkRequest "1" HTTP_GET "/deactivate") sample_world
       {| status := 200; content_type := "text/html"; body := redirect_page 1 "/" |}.
Proof.
  split; [exact sample_world_running |].
  apply (mutating_routes_redirect sample_sin_3 "1" HTTP_GET sample_world).
  exact sample_world_running.
Defined.

Lemma route_table_exact_witness :
  running sample_sin_3 sample_world
  /\ map fst (handlers (server sample_world)) = registered_paths
  /\ notFoundHandler (server sample_world) = Some fn_NotFound.
Proof.
  split; [exact sample_world_running |].
  destruct (route_table_exact sample_sin_3 sample_world sample_world_running)
    as [Hpaths [_ [Hnf _]]].
  split; [exact Hpaths | exact Hnf].
Defined.

Lemma dispatch_root_or_unmatched_frame_witness :
  running sample_sin_3 sample_world
  /\ ("/" = "/" \/ ~ In "/" registered_paths)
  /\ tc_state (dispatch sample_sin_3 (mkRequest "1" HTTP_GET "/") sample_world)
     = tc_state sample_world
  /\ web_calibrate (dispatch sample_sin_3 (mkRequest "1" HTTP_GET "/") sample_world)
     = web_calibrate sample_world.
Proof.
  split; [exact sample_world_running |].
  split; [left; reflexivity |].
  apply (dispatch_root_or_unmatched_frame sample_sin_3
           (mkRequest "1" HTTP_GET "/") sample_world).
  - exact sample_world_running.
  - left. reflexivity.
Defined.

Lemma sample_sin_3_plain (index : Z) :
  0 <= index < 20 ->
  count_char "010"%char (sample_sin_3 index) = 0%nat
  /\ count_char ","%char (sample_sin_3 index) = 0%nat.
Proof. intros _. split; reflexivity. Defined.

Lemma every_request_answered_witness :
  running sample_sin_3 sample_world
  /\ exists r : Response,
       responds sample_sin_3 (mkRequest "1" HTTP_GET "/calibrate") sample_world r
       /\ (status r = 200 <-> In "/calibrate" registered_paths)
       /\ (status r = 200 -> content_type r = "text/html")
       /\ (status r <> 200 ->
           r = {| status := 404; content_type := "text/plain"; body := "Not found" |}).
Proof.
  split; [exact sample_world_running |].
  apply (every_request_answered sample_sin_3
           (mkRequest "1" HTTP_GET "/calibrate") sample_world).
  exact sample_world_running.
Defined.

Lemma poll_loop_responses_witness :
  running sample_sin_3 sample_world
  /\ sent (server (task_webserver_loop sample_sin_3 sample_polls sample_world))
     = (sent (server sample_world)
        ++ map (fun req => reply_for (req_path req)) (served sample_polls))%list.
Proof.
  split; [exact sample_world_running |].
  apply (poll_loop_responses sample_sin_3 sample_polls sample_world).
  exact sample_world_running.
Defined.

Lemma poll_loop_calibrate_accumulates_witness :
  running sample_sin_3 sample_world
  /\ get (web_calibrate (task_webserver_loop sample_sin_3 sample_polls sample_world))
     = (get (web_calibrate sample_world) || calibrate_asked (served sample_polls))%bool.
Proof.
  split; [exact sample_world_running |].
  apply (poll_loop_calibrate_accumulates sample_sin_3 sample_polls sample_world).
  exact sample_world_running.
Defined.

Lemma poll_loop_last_command_wins_witness :
  running sample_sin_3 sample_world
  /\ get (tc_state (task_webserver_loop sample_sin_3 sample_polls sample_world))
     = match last_flight_command (served sample_polls) with
       | Some b => b
       | None => get (tc_state sample_world)
       end.
Proof.
  split; [exact sample_world_running |].
  apply (poll_loop_last_command_wins sample_sin_3 sample_polls sample_world).
  exact sample_world_running.
Defined.

Lemma only_root_writes_serial_witness :
  running sample_sin_3 sample_world
  /\ "/" = "/"
  /\ Serial (dispatch sample_sin_3 (mkRequest "7" HTTP_GET "/") sample_world)
     = (Serial sample_world ++ ["HTTP request from client #"; "7"; endl])%list.
Proof.
  split; [exact sample_world_running |].
  split; [reflexivity |].
  apply (only_root_writes_serial sample_sin_3
           (mkRequest "7" HTTP_GET "/") sample_world).
  - exact sample_world_running.
  - reflexivity.
Defined.

Lemma csv_has_21_lines_witness :
  (forall index, 0 <= index < 20 ->
     count_char "010"%char (sample_sin_3 index) = 0%nat
     /\ count_char ","%char (sample_sin_3 index) = 0%nat)
  /\ exists csv : string,
       sent (server (handle_Set_Rudder sample_sin_3 sample_world))
       = (sent (server sample_world)
          ++ [ {| status := 404; content_type := "text/plain"; body := csv |} ])%list
       /\ count_char "010"%char csv = 21%nat
       /\ count_char ","%char csv = 21%nat.
Proof.
  split; [exact sample_sin_3_plain |].
  apply (csv_has_21_lines sample_sin_3 sample_world).
  exact sample_sin_3_plain.
Defined.

Lemma manual_control_forms_not_served_witness :
  running sample_sin_3 sample_world
  /\ responds sample_sin_3 (mkRequest "1" HTTP_GET "/set_rudder") sample_world
       {| status := 404; content_type := "text/plain"; body := "Not found" |}.
Proof.
  split; [exact sample_world_running |].
  apply (manual_control_forms_not_served sample_sin_3 "1" HTTP_GET sample_world).
  exact sample_world_running.
Defined.

Lemma running_server_begun_on_80_witness :
  running sample_sin_3 sample_world
  /\ port (server sample_world) = 80 /\ begun (server sample_world) = true.
Proof.
  split; [exact sample_world_running |].
  apply (running_server_begun_on_80 sample_sin_3 sample_world).
  exact sample_world_running.
Defined.
